(** * SimpleApi: the two endpoints of [app/main.py]

    The service is a FastAPI application with two routes, [GET /ping] and
    [POST /add].  The handlers [ping] and [add] and the request model
    [AddRequest] are embedded from [app/main.py]; the part of the runtime
    and of the web framework that sits between the socket and the handlers
    (decoding of the body, validation of the model, rendering of a response,
    the answers to a raised exception) is modelled beside them.

    Conventions.
    - A request body is the value its JSON text denotes: [json].
    - Python's [int] is unbounded, so it is [Z] and [+] is [Z.add]; its
      conversion to and from decimal text is limited to 4300 digits (the
      default of CPython 3.11 and later).
    - A handler either returns or raises: [Outcome].  Handlers run in a
      state-passing monad over an arbitrary [World], the process state a
      handler could read or write.
    - A string is the UTF-8 text of a Python [str]; nesting stays within the
      interpreter's recursion limit. *)

From Stdlib Require Import ZArith List String Ascii Bool Lia SpecFloat.
From Stdlib Require DecimalPos DecimalString.
From Stdlib Require Import Permutation.
Import ListNotations.

Local Open Scope string_scope.
Local Open Scope Z_scope.
Local Set Warnings "-register-all".

(** ** JSON values *)

(** What a JSON text denotes.  A number written without fraction and
    exponent is an [int], every other number a [float]; the float is kept as
    its IEEE value (a literal too large for a double, and the literals
    [Infinity] and [NaN], give the non-finite ones). *)
Inductive json : Type :=
| JNull
| JBool (b : bool)
| JInt (n : Z)
| JFloat (f : spec_float)
| JString (s : string)
| JArray (items : list json)
| JObject (members : list (string * json)).

(** Member lookup of a decoded object.  [members] lists the members in the
    order of the text; as in a Python [dict] built by [json.loads], a later
    member with the same key replaces an earlier one. *)
Fixpoint dict_get (key : string) (members : list (string * json)) : option json :=
  match members with
  | [] => None
  | (k, v) :: rest =>
      match dict_get key rest with
      | Some later => Some later
      | None => if String.eqb k key then Some v else None
      end
  end.

Definition has_key (key : string) (members : list (string * json)) : bool :=
  match dict_get key members with
  | Some _ => true
  | None => false
  end.

(** ** Limits of the runtime *)

(** [sys.int_info.default_max_str_digits]: an [int] is converted to or from
    decimal text only when it has at most this many digits. *)
Definition int_max_str_digits : Z := 4300.

Definition int_str_bound : Z := 10 ^ int_max_str_digits.

(** [n] has at most [int_max_str_digits] decimal digits. *)
Definition int_str_ok (n : Z) : bool := Z.abs n <? int_str_bound.

Arguments int_str_ok : simpl never.

Definition is_finite (f : spec_float) : bool :=
  match f with
  | S754_zero _ | S754_finite _ _ _ => true
  | S754_infinity _ | S754_nan => false
  end.

(** [json.loads] succeeds on the text of [v]: every integer literal, also
    one in a member that a later member replaces, is within the limit. *)
Fixpoint loadable (v : json) : bool :=
  match v with
  | JNull | JBool _ | JFloat _ | JString _ => true
  | JInt n => int_str_ok n
  | JArray items =>
      (fix all (l : list json) : bool :=
         match l with
         | [] => true
         | x :: rest => loadable x && all rest
         end) items
  | JObject members =>
      (fix all (l : list (string * json)) : bool :=
         match l with
         | [] => true
         | (_, x) :: rest => loadable x && all rest
         end) members
  end.

(** [json.dumps(v, allow_nan=False)] succeeds on the decoded value: no
    [int] beyond the limit and no non-finite [float].  Of an object only the
    members of the [dict] count, not those a later member has replaced. *)
Fixpoint renderable (v : json) : bool :=
  match v with
  | JNull | JBool _ | JString _ => true
  | JInt n => int_str_ok n
  | JFloat f => is_finite f
  | JArray items =>
      (fix all (l : list json) : bool :=
         match l with
         | [] => true
         | x :: rest => renderable x && all rest
         end) items
  | JObject members =>
      (fix all (l : list (string * json)) : bool :=
         match l with
         | [] => true
         | (k, x) :: rest => (has_key k rest || renderable x) && all rest
         end) members
  end.

Fixpoint renderable_members (l : list (string * json)) : bool :=
  match l with
  | [] => true
  | (k, x) :: rest => (has_key k rest || renderable x) && renderable_members rest
  end.

(** ** Outcomes and state-passing handlers *)

(** Location of a validation error: keys and positions from the root of the
    request, e.g. [["body"; "a"]]. *)
Inductive LocItem : Type :=
| Key (name : string)
| Index (pos : Z).

(** The kinds of validation error the [/add] route can report (the [type]
    member of an entry of [detail]). *)
Inductive ErrorType : Type :=
| missing
| int_type
| int_parsing
| int_parsing_size
| int_from_float
| finite_number
| model_attributes_type
| json_invalid.

(** One entry of the [detail] list of a 422 answer, as far as the content of
    the answer is modelled: where and what.  The human-readable [msg] and
    the echoed [input] are not part of it. *)
Record ErrorDetail : Type := mkError {
  loc : list LocItem;
  type_ : ErrorType
}.

(** A validation error as the validator raises it: the entry together with
    the input it echoes, which has to be rendered with it. *)
Record LineError : Type := mkLine {
  shown : ErrorDetail;
  input : json
}.

Inductive Exception : Type :=
| ValueError
| HTTPException (status : Z) (detail : string)
| RequestValidationError (lines : list LineError).

Inductive Outcome (A : Type) : Type :=
| Returned (x : A)
| Raised (e : Exception).

Arguments Returned {A} x.
Arguments Raised {A} e.

Definition Handler (World A : Type) : Type := World -> Outcome A * World.

Definition lift {World A : Type} (o : Outcome A) : Handler World A :=
  fun w => (o, w).

Definition raise {World A : Type} (e : Exception) : Handler World A :=
  lift (Raised e).

(** ** Responses *)

Inductive Content : Type :=
| Document (v : json)
| Detail (errors : list ErrorDetail)
| Message (detail : string)
| Text (body : string).

Record Response : Type := mkResponse {
  status_code : Z;
  content : Content
}.

(** [JSONResponse(content=c)]: the status code defaults to 200; the content
    is rendered when the response is built, and that raises [ValueError] on
    a value [json.dumps] refuses. *)
Definition JSONResponse (c : json) : Outcome Response :=
  if renderable c
  then Returned {| status_code := 200; content := Document c |}
  else Raised ValueError.

(** The answer to a [RequestValidationError]: a [JSONResponse] with status
    422 that lists the errors, their inputs included. *)
Definition validation_error_response (lines : list LineError) : Outcome Response :=
  if forallb (fun l => renderable (input l)) lines
  then Returned {| status_code := 422; content := Detail (map shown lines) |}
  else Raised ValueError.

(** The answer to an [HTTPException]: [{"detail": detail}]. *)
Definition http_exception_response (status : Z) (detail : string) : Response :=
  {| status_code := status; content := Message detail |}.

(** The answer to any other exception, in plain text. *)
Definition internal_server_error : Response :=
  {| status_code := 500; content := Text "Internal Server Error" |}.

Definition bad_request : Response :=
  http_exception_response 400 "There was an error parsing the body".

(** ** The request model *)

(** [class AddRequest(BaseModel): a: int; b: int]. *)
Module AddRequest.
Record t : Type := mk { a : Z; b : Z }.
End AddRequest.

(** ** The handlers of [app/main.py] *)

Section Handlers.
Context {World : Type}.

(** [def ping(): return JSONResponse(content={"status": "ok"})] *)
Definition ping : Handler World Response :=
  lift (JSONResponse (JObject [("status", JString "ok")])).

(** [def add(data: AddRequest):
       return JSONResponse(content={"a": data.a, "b": data.b,
                                    "result": data.a + data.b})] *)
Definition add (data : AddRequest.t) : Handler World Response :=
  lift (JSONResponse
          (JObject [("a", JInt (AddRequest.a data));
                    ("b", JInt (AddRequest.b data));
                    ("result", JInt (AddRequest.a data + AddRequest.b data))])).
End Handlers.

(** ** Validation of an [int] field

    [AddRequest] derives from pydantic's [BaseModel] without a strict
    configuration, so its fields are validated in lax mode: besides an
    [int], a [bool], a numeric [str] and a [float] without fractional part
    are converted.  The rules are pydantic's (version 2), not this
    repository's.  For strings they are written out for two classes only,
    plain decimal literals and strings with a letter; what the installed
    release does with any other string is left open as [other]. *)

(** White space removed around a numeric string. *)
Definition is_space (c : ascii) : bool :=
  match c with
  | " "%char | "009"%char | "010"%char | "011"%char | "012"%char | "013"%char => true
  | _ => false
  end.

Definition is_letter (c : ascii) : bool :=
  let n := Z.of_nat (nat_of_ascii c) in
  ((65 <=? n) && (n <=? 90)) || ((97 <=? n) && (n <=? 122)).

Fixpoint drop_spaces (cs : list ascii) : list ascii :=
  match cs with
  | c :: rest => if is_space c then drop_spaces rest else cs
  | [] => []
  end.

Definition trim (cs : list ascii) : list ascii :=
  rev (drop_spaces (rev (drop_spaces cs))).

Definition digit_value (c : ascii) : option Z :=
  let n := Z.of_nat (nat_of_ascii c) in
  if (48 <=? n) && (n <=? 57) then Some (n - 48) else None.

(** Value of a run of decimal digits read after the value [acc]. *)
Fixpoint read_digits (acc : Z) (cs : list ascii) : option Z :=
  match cs with
  | [] => Some acc
  | c :: rest =>
      match digit_value c with
      | Some d => read_digits (10 * acc + d) rest
      | None => None
      end
  end.

Definition read_natural (cs : list ascii) : option Z :=
  match cs with
  | [] => None
  | _ :: _ => read_digits 0 cs
  end.

(** An optional sign followed by decimal digits. *)
Definition plain_decimal (cs : list ascii) : option Z :=
  match cs with
  | "-"%char :: ds => option_map Z.opp (read_natural ds)
  | "+"%char :: ds => read_natural ds
  | ds => read_natural ds
  end.

(** The longest string the validator reads as a number. *)
Definition max_int_str_len : Z := 4300.

(** A string that is, white space around it removed, a plain decimal
    literal of at most [max_int_str_len] characters is taken as that
    integer; a string of at most that length with a letter in it is refused
    as not numeric.  Every other string (digit groups with underscores, a
    trailing [.0], white space outside ASCII, longer strings, ...) is
    decided by [other]. *)
Definition str_as_int (other : string -> ErrorType + Z) (s : string)
  : ErrorType + Z :=
  let cs := list_ascii_of_string s in
  match plain_decimal (trim cs) with
  | Some n =>
      if Z.of_nat (List.length (trim cs)) <=? max_int_str_len
      then inr n else other s
  | None =>
      if existsb is_letter cs && (Z.of_nat (List.length cs) <=? max_int_str_len)
      then inl int_parsing else other s
  end.

(** A float is taken when it is finite, has no fractional part and lies
    strictly between [-2^63] and [2^63]. *)
Definition float_as_int (f : spec_float) : ErrorType + Z :=
  match f with
  | S754_zero _ => inr 0
  | S754_infinity _ | S754_nan => inl finite_number
  | S754_finite s m e =>
      let magnitude :=
        if 0 <=? e then Some (Zpos m * 2 ^ e)
        else if Zpos m mod 2 ^ (- e) =? 0 then Some (Zpos m / 2 ^ (- e))
        else None in
      match magnitude with
      | None => inl int_from_float
      | Some n =>
          if n <? 2 ^ 63 then inr (if s then - n else n)
          else inl int_parsing_size
      end
  end.

(** Lax validation of a value against the annotation [int]. *)
Definition lax_int (other : string -> ErrorType + Z) (v : json) : ErrorType + Z :=
  match v with
  | JInt n => inr n
  | JBool b => inr (if b then 1 else 0)
  | JString s => str_as_int other s
  | JFloat f => float_as_int f
  | JNull | JArray _ | JObject _ => inl int_type
  end.

(** ** The [/add] and [/ping] routes *)

(** What arrives as the body of a request: nothing; bytes that are not a
    JSON text (with the position of the syntax error); bytes [json.loads]
    refuses for another reason (an integer literal beyond the limit, bytes
    that are not UTF-8, ...); or a decoded value. *)
Inductive Payload : Type :=
| NoBody
| Undecodable (pos : Z)
| Unreadable
| Decoded (v : json).

(** The payload a body with the JSON text of [v] gives. *)
Definition json_body (v : json) : Payload :=
  if loadable v then Decoded v else Unreadable.

(** The two routes registered on [app]:
    [@app.get("/ping")] and [@app.post("/add")]. *)
Inductive Request : Type :=
| GET_ping (payload : Payload)
| POST_add (payload : Payload).

Definition is_success (r : Response) : bool :=
  match content r with
  | Document _ => status_code r =? 200
  | _ => false
  end.

Definition is_validation_error (r : Response) : bool :=
  match content r with
  | Detail _ => status_code r =? 422
  | _ => false
  end.

(** An entry of [detail] located at field [name] of the body. *)
Definition at_field (name : string) (e : ErrorDetail) : Prop :=
  loc e = [Key "body"; Key name].

Definition references_field (name : string) (r : Response) : Prop :=
  match content r with
  | Detail errors => Exists (at_field name) errors
  | _ => False
  end.

Section Service.
Context {World : Type}.

(** The validator the annotation [int] stands for. *)
Variable validate_int : json -> ErrorType + Z.

(** One required field of the model: absent, rejected or converted.  The
    error of an absent field echoes the whole body, that of a rejected one
    its value. *)
Definition validate_field (name : string) (members : list (string * json))
  : list LineError + Z :=
  match dict_get name members with
  | None => inl [mkLine (mkError [Key name] missing) (JObject members)]
  | Some v =>
      match validate_int v with
      | inl e => inl [mkLine (mkError [Key name] e) v]
      | inr n => inr n
      end
  end.

(** Validation of a decoded value against [AddRequest]: the value must be
    an object; the fields are validated in the order of the class and the
    errors of all of them are reported; members other than [a] and [b] are
    ignored. *)
Definition model_validate (v : json) : list LineError + AddRequest.t :=
  match v with
  | JObject members =>
      match validate_field "a" members, validate_field "b" members with
      | inr a, inr b => inr (AddRequest.mk a b)
      | inl ea, inr _ => inl ea
      | inr _, inl eb => inl eb
      | inl ea, inl eb => inl (ea ++ eb)%list
      end
  | _ => inl [mkLine (mkError [] model_attributes_type) v]
  end.

Definition under_body (l : LineError) : LineError :=
  mkLine (mkError (Key "body" :: loc (shown l)) (type_ (shown l))) (input l).

(** Reading the body and validating it against the parameter [data] of the
    handler.  The body is required.  A body [json.loads] refuses for a
    reason other than its syntax ends the request with status 400. *)
Definition validate_request_body (p : Payload)
  : Outcome (list LineError + AddRequest.t) :=
  match p with
  | NoBody => Returned (inl [mkLine (mkError [Key "body"] missing) JNull])
  | Undecodable pos =>
      Returned (inl [mkLine (mkError [Key "body"; Index pos] json_invalid)
                       (JObject [])])
  | Unreadable =>
      Raised (HTTPException 400 "There was an error parsing the body")
  | Decoded v =>
      match model_validate v with
      | inl lines => Returned (inl (map under_body lines))
      | inr data => Returned (inr data)
      end
  end.

(** The argument [data] of [add], or the entries the answer will list. *)
Definition request_body_to_args (p : Payload)
  : Outcome (list ErrorDetail + AddRequest.t) :=
  match validate_request_body p with
  | Returned (inl lines) => Returned (inl (map shown lines))
  | Returned (inr data) => Returned (inr data)
  | Raised e => Raised e
  end.

(** [@app.post(path)] on a handler with one parameter of type [AddRequest]:
    the handler runs on a validated [AddRequest] only, and what it returns
    or raises is passed on. *)
Definition app_post (handler : AddRequest.t -> Handler World Response)
  (p : Payload) : Handler World Response :=
  match validate_request_body p with
  | Raised e => raise e
  | Returned (inl lines) => raise (RequestValidationError lines)
  | Returned (inr data) => handler data
  end.

(** [@app.get(path)] on a handler without parameters: the request is not
    looked at. *)
Definition app_get (handler : Handler World Response)
  (p : Payload) : Handler World Response :=
  handler.

(** [@app.post("/add") def add(data: AddRequest)] *)
Definition post_add : Payload -> Handler World Response :=
  app_post add.

(** [@app.get("/ping") def ping()] *)
Definition get_ping : Payload -> Handler World Response :=
  app_get ping.

Definition dispatch (r : Request) : Handler World Response :=
  match r with
  | GET_ping p => get_ping p
  | POST_add p => post_add p
  end.

(** The exception handlers of the application.  The one for validation
    errors builds a [JSONResponse] itself and so can raise in turn. *)
Definition exception_handler (e : Exception) : Outcome Response :=
  match e with
  | RequestValidationError lines => validation_error_response lines
  | HTTPException status detail =>
      Returned (http_exception_response status detail)
  | ValueError => Raised ValueError
  end.

(** What is sent: the response of the route, the answer of an exception
    handler, or a 500 when the exception is not handled. *)
Definition respond (o : Outcome Response) : Response :=
  match o with
  | Returned r => r
  | Raised e =>
      match exception_handler e with
      | Returned r => r
      | Raised _ => internal_server_error
      end
  end.

Definition serve (r : Request) (w : World) : Response * World :=
  (respond (fst (dispatch r w)), snd (dispatch r w)).

(** The process serving a sequence of requests one after the other. *)
Fixpoint serve_all (rs : list Request) (w : World) : list Response * World :=
  match rs with
  | [] => ([], w)
  | r :: rest =>
      let (x, w1) := serve r w in
      let (xs, w2) := serve_all rest w1 in
      (x :: xs, w2)
  end.
End Service.

(** A field of an object body that makes validation fail: absent, or
    holding a value the validator rejects. *)
Definition offending (validate_int : json -> ErrorType + Z)
  (members : list (string * json)) (name : string) : bool :=
  match dict_get name members with
  | None => true
  | Some v => match validate_int v with inl _ => true | inr _ => false end
  end.


(** Whether lax validation converts a value. *)
Definition coercible (other : string -> ErrorType + Z) (v : json) : bool :=
  match lax_int other v with
  | inl _ => false
  | inr _ => true
  end.

(** The text [{"a": a, "b": b}] as a body. *)
Definition ints_body (a b : Z) : Payload :=
  json_body (JObject [("a", JInt a); ("b", JInt b)]).


Definition is_json_integer (v : json) : bool :=
  match v with
  | JInt _ => true
  | _ => false
  end.


(** The double 2.0: mantissa [2^52], exponent [-51]. *)
Definition float_two : spec_float := S754_finite false 4503599627370496 (-51).

(** [str(n)], the decimal literal of an integer, as the standard library
    prints it. *)
Definition decimal (n : Z) : string :=
  DecimalString.NilZero.string_of_int (Z.to_int n).

(** The characters of a run of decimal digits, and the value of the run
    read after [acc]. *)
Definition digits_of (d : Decimal.uint) : list ascii :=
  list_ascii_of_string (DecimalString.NilEmpty.string_of_uint d).

Fixpoint uint_value (acc : Z) (d : Decimal.uint) : Z :=
  match d with
  | Decimal.Nil => acc
  | Decimal.D0 l => uint_value (10 * acc + 0) l
  | Decimal.D1 l => uint_value (10 * acc + 1) l
  | Decimal.D2 l => uint_value (10 * acc + 2) l
  | Decimal.D3 l => uint_value (10 * acc + 3) l
  | Decimal.D4 l => uint_value (10 * acc + 4) l
  | Decimal.D5 l => uint_value (10 * acc + 5) l
  | Decimal.D6 l => uint_value (10 * acc + 6) l
  | Decimal.D7 l => uint_value (10 * acc + 7) l
  | Decimal.D8 l => uint_value (10 * acc + 8) l
  | Decimal.D9 l => uint_value (10 * acc + 9) l
  end.

(** The body [{"a": x, "b": y}]. *)
Definition body_ab (x y : json) : Payload :=
  Decoded (JObject [("a", x); ("b", y)]).

(** The content [{"a": a, "b": b, "result": r}]. *)
Definition sum_document (a b r : Z) : json :=
  JObject [("a", JInt a); ("b", JInt b); ("result", JInt r)].

(** The [result] member of a successful answer of [/add]; nothing for any
    other answer. *)
Definition result_of (r : Response) : option json :=
  match content r with
  | Document (JObject members) => dict_get "result" members
  | _ => None
  end.

(** * Properties *)

(** ** The limits of the runtime *)

Lemma int_str_bound_gt_1 : 1 < int_str_bound.
Proof.
  unfold int_str_bound, int_max_str_digits. apply Z.pow_gt_1; lia.
Qed.

(** Every integer of at most 30 digits is within the limit. *)
Lemma int_str_ok_small (n : Z) :
  (Z.abs n <? 10 ^ 30) = true -> int_str_ok n = true.
Proof.
  intros Hsmall. apply Z.ltb_lt in Hsmall.
  assert (Hle : 10 ^ 30 <= int_str_bound).
  { unfold int_str_bound, int_max_str_digits. apply Z.pow_le_mono_r; lia. }
  unfold int_str_ok. apply Z.ltb_lt.
  eapply Z.lt_le_trans; [exact Hsmall | exact Hle].
Qed.

(** The largest integer within the limit, and the first one beyond it. *)
Lemma int_str_ok_largest : int_str_ok (int_str_bound - 1) = true.
Proof.
  pose proof int_str_bound_gt_1 as Hgt.
  unfold int_str_ok. apply Z.ltb_lt. lia.
Qed.

Lemma int_str_ok_bound : int_str_ok int_str_bound = false.
Proof.
  pose proof int_str_bound_gt_1 as Hgt.
  unfold int_str_ok. apply Z.ltb_ge. lia.
Qed.

Ltac small_int := apply int_str_ok_small; reflexivity.

Lemma renderable_object (members : list (string * json)) :
  renderable (JObject members) = renderable_members members.
Proof.
  induction members as [|[k x] rest IH]; [reflexivity|].
  cbn [renderable renderable_members] in *. rewrite <- IH. reflexivity.
Qed.

Lemma renderable_sum_document (a b r : Z) :
  renderable (sum_document a b r) =
  int_str_ok a && int_str_ok b && int_str_ok r.
Proof.
  unfold sum_document. rewrite renderable_object.
  cbn [renderable_members renderable has_key dict_get String.eqb Ascii.eqb
       Bool.eqb orb].
  destruct (int_str_ok a), (int_str_ok b), (int_str_ok r); reflexivity.
Qed.

(** ** The routes, case by case *)

Section RouteLemmas.
Context {World : Type}.
Variable validate_int : json -> ErrorType + Z.

Lemma args_of_validated (p : Payload) (data : AddRequest.t) :
  request_body_to_args validate_int p = Returned (inr data) ->
  validate_request_body validate_int p = Returned (inr data).
Proof.
  unfold request_body_to_args.
  destruct (validate_request_body validate_int p) as [[lines|d]|e];
    congruence.
Qed.

(** An accepted request: the answer is what [add] makes of the data. *)
Lemma post_add_accepted (p : Payload) (data : AddRequest.t) (w : World) :
  request_body_to_args validate_int p = Returned (inr data) ->
  serve validate_int (POST_add p) w =
  (if renderable (sum_document (AddRequest.a data) (AddRequest.b data)
                    (AddRequest.a data + AddRequest.b data))
   then {| status_code := 200;
           content := Document (sum_document (AddRequest.a data)
                                  (AddRequest.b data)
                                  (AddRequest.a data + AddRequest.b data)) |}
   else internal_server_error, w).
Proof.
  intros Hargs. apply args_of_validated in Hargs.
  unfold serve, dispatch, post_add, app_post. rewrite Hargs.
  unfold add, lift, JSONResponse. cbn [fst snd].
  fold (sum_document (AddRequest.a data) (AddRequest.b data)
          (AddRequest.a data + AddRequest.b data)).
  destruct (renderable _); reflexivity.
Qed.



Lemma post_add_unreadable (w : World) :
  serve validate_int (POST_add Unreadable) w = (bad_request, w).
Proof.
  reflexivity.
Qed.


Lemma validate_field_accepted (name : string) (members : list (string * json))
  (v : json) (n : Z) :
  dict_get name members = Some v -> validate_int v = inr n ->
  validate_field validate_int name members = inr n.
Proof.
  intros Hget Hv. unfold validate_field. rewrite Hget, Hv. reflexivity.
Qed.


Lemma validate_field_not_offending (name : string) (members : list (string * json)) :
  offending validate_int members name = false ->
  exists n, validate_field validate_int name members = inr n.
Proof.
  unfold offending, validate_field.
  destruct (dict_get name members) as [v|]; [|discriminate].
  destruct (validate_int v) as [e|n]; [discriminate | eauto].
Qed.

Lemma dispatch_keeps_world (r : Request) (w : World) :
  snd (dispatch validate_int r w) = w.
Proof.
  destruct r as [p|p]; cbn; [reflexivity|].
  unfold post_add, app_post.
  destruct (validate_request_body validate_int p) as [[lines|data]|e];
    reflexivity.
Qed.

Lemma dispatch_ignores_world (r : Request) (w1 w2 : World) :
  fst (dispatch validate_int r w1) = fst (dispatch validate_int r w2).
Proof.
  destruct r as [p|p]; cbn; [reflexivity|].
  unfold post_add, app_post.
  destruct (validate_request_body validate_int p) as [[lines|data]|e];
    reflexivity.
Qed.

(** The world is handed on untouched by both routes. *)
Lemma serve_keeps_world (r : Request) (w : World) :
  snd (serve validate_int r w) = w.
Proof.
  apply dispatch_keeps_world.
Qed.

(** The answer of a route is fixed by the request alone. *)
Lemma serve_ignores_world (r : Request) (w1 w2 : World) :
  fst (serve validate_int r w1) = fst (serve validate_int r w2).
Proof.
  unfold serve. cbn [fst]. rewrite (dispatch_ignores_world r w1 w2). reflexivity.
Qed.

Lemma serve_all_keeps_world (rs : list Request) (w : World) :
  snd (serve_all validate_int rs w) = w.
Proof.
  revert w. induction rs as [|r rest IH]; intros w; [reflexivity|].
  cbn [serve_all].
  pose proof (serve_keeps_world r w) as Hr.
  destruct (serve validate_int r w) as [x w1]. cbn in Hr. subst w1.
  pose proof (IH w) as Hrest.
  destruct (serve_all validate_int rest w) as [xs w2]. cbn in Hrest. subst w2.
  reflexivity.
Qed.

Lemma serve_all_pointwise (rs : list Request) (w w0 : World) :
  fst (serve_all validate_int rs w) =
  map (fun r => fst (serve validate_int r w0)) rs.
Proof.
  revert w. induction rs as [|r rest IH]; intros w; [reflexivity|].
  cbn [serve_all map].
  pose proof (serve_keeps_world r w) as Hw.
  pose proof (serve_ignores_world r w w0) as Hr.
  destruct (serve validate_int r w) as [x w1]. cbn in Hw, Hr. subst w1 x.
  specialize (IH w).
  destruct (serve_all validate_int rest w) as [xs w2]. cbn in IH. subst xs.
  reflexivity.
Qed.
End RouteLemmas.

(** ** Lookup and rendering of an object *)

Lemma renderable_lookup (members : list (string * json)) (key : string) (v : json) :
  renderable_members members = true ->
  dict_get key members = Some v -> renderable v = true.
Proof.
  induction members as [|[k x] rest IH]; cbn [renderable_members dict_get];
    [discriminate|].
  intros Hall Hget. apply andb_true_iff in Hall as [Hhead Hrest].
  destruct (dict_get key rest) as [later|] eqn:Hlater.
  - injection Hget as <-. apply IH; [exact Hrest | reflexivity].
  - destruct (String.eqb_spec k key) as [-> | _]; [|discriminate].
    injection Hget as <-. unfold has_key in Hhead. rewrite Hlater in Hhead.
    exact Hhead.
Qed.

Lemma renderable_of_lookups (members : list (string * json)) :
  (forall key v, dict_get key members = Some v -> renderable v = true) ->
  renderable_members members = true.
Proof.
  induction members as [|[k x] rest IH]; cbn [renderable_members]; [reflexivity|].
  intros Hall. apply andb_true_iff. split.
  - unfold has_key. destruct (dict_get k rest) as [later|] eqn:Hlater;
      [reflexivity|].
    apply (Hall k). cbn [dict_get]. rewrite Hlater, String.eqb_refl. reflexivity.
  - apply IH. intros key v Hget. apply (Hall key). cbn [dict_get].
    rewrite Hget. reflexivity.
Qed.

(** Whether an object renders is decided by what its lookups give. *)
Lemma renderable_by_lookups (m m' : list (string * json)) :
  (forall key, dict_get key m = dict_get key m') ->
  renderable (JObject m) = renderable (JObject m').
Proof.
  intros Hsame. rewrite !renderable_object.
  destruct (renderable_members m) eqn:Hm; destruct (renderable_members m') eqn:Hm';
    try reflexivity.
  - rewrite <- Hm'. symmetry. apply renderable_of_lookups.
    intros key v Hget. rewrite <- Hsame in Hget.
    exact (renderable_lookup m key v Hm Hget).
  - rewrite <- Hm. apply renderable_of_lookups.
    intros key v Hget. rewrite Hsame in Hget.
    exact (renderable_lookup m' key v Hm' Hget).
Qed.


(** ** [POST /add] on integers *)

(** An object whose members [a] and [b] are JSON integers is accepted,
    whatever other members it has. *)
Lemma add_integers_any_object {World : Type}
  (other : string -> ErrorType + Z)
  (members : list (string * json)) (a b : Z) (w : World) :
  dict_get "a" members = Some (JInt a) ->
  dict_get "b" members = Some (JInt b) ->
  serve (lax_int other) (POST_add (Decoded (JObject members))) w =
  (if renderable (sum_document a b (a + b))
   then {| status_code := 200; content := Document (sum_document a b (a + b)) |}
   else internal_server_error, w).
Proof.
  intros Ha Hb.
  apply (post_add_accepted (lax_int other) _ (AddRequest.mk a b)).
  unfold request_body_to_args, validate_request_body, model_validate.
  rewrite (validate_field_accepted (lax_int other) "a" members (JInt a) a Ha eq_refl).
  rewrite (validate_field_accepted (lax_int other) "b" members (JInt b) b Hb eq_refl).
  reflexivity.
Qed.

(** The answer to the text [{"a": a, "b": b}], for all integers: 400 when a
    literal is beyond the limit of the runtime, 500 when the sum is, and
    the sum otherwise. *)
Lemma ints_body_answer {World : Type} (other : string -> ErrorType + Z)
  (a b : Z) (w : World) :
  serve (lax_int other) (POST_add (ints_body a b)) w =
  (if int_str_ok a && int_str_ok b
   then if int_str_ok (a + b)
        then {| status_code := 200;
                content := Document (sum_document a b (a + b)) |}
        else internal_server_error
   else bad_request, w).
Proof.
  unfold ints_body, json_body. cbn [loadable].
  destruct (int_str_ok a) eqn:Ha; destruct (int_str_ok b) eqn:Hb; cbn [andb];
    try reflexivity.
  rewrite (add_integers_any_object other [("a", JInt a); ("b", JInt b)] a b w
             eq_refl eq_refl).
  rewrite renderable_sum_document, Ha, Hb. reflexivity.
Qed.

(** C1, as stated, fails: not every pair of integers is answered with
    status 200.  The integers [10^4300 - 1] and [1] are both read and
    accepted, but their sum has 4301 digits, [JSONResponse] raises while
    rendering it, and the answer is a 500. *)
Lemma large_sum_not_answered :
  ~ (exists other : string -> ErrorType + Z,
        forall a b : Z,
          serve (lax_int other) (POST_add (ints_body a b)) tt =
          ({| status_code := 200;
              content := Document (sum_document a b (a + b)) |}, tt)).
Proof.
  intros [other Hclaim].
  specialize (Hclaim (int_str_bound - 1) 1).
  rewrite ints_body_answer in Hclaim.
  rewrite int_str_ok_largest in Hclaim.
  rewrite (int_str_ok_small 1 eq_refl) in Hclaim.
  replace (int_str_bound - 1 + 1) with int_str_bound in Hclaim by lia.
  rewrite int_str_ok_bound in Hclaim. cbn [andb] in Hclaim.
  discriminate Hclaim.
Qed.

(** C1, amended.  For all integers [a] and [b] that, like their sum, have
    at most 4300 decimal digits, [POST /add] with body [{"a": a, "b": b}]
    answers with status 200 and content [{"a": a, "b": b, "result": a+b}];
    so [{"a": 2, "b": 3}] gives result 5 and [{"a": -1, "b": 1}] gives
    result 0. *)
Theorem add_integers_ok :
  forall (World : Type) (other : string -> ErrorType + Z) (w : World)
         (a b : Z),
    int_str_ok a = true -> int_str_ok b = true -> int_str_ok (a + b) = true ->
    serve (lax_int other) (POST_add (ints_body a b)) w =
    ({| status_code := 200; content := Document (sum_document a b (a + b)) |}, w)
    /\ serve (lax_int other) (POST_add (ints_body 2 3)) w =
       ({| status_code := 200; content := Document (sum_document 2 3 5) |}, w)
    /\ serve (lax_int other) (POST_add (ints_body (-1) 1)) w =
       ({| status_code := 200; content := Document (sum_document (-1) 1 0) |}, w).
Proof.
  intros World other w a b Ha Hb Hsum. split; [|split].
  - rewrite ints_body_answer, Ha, Hb, Hsum. reflexivity.
  - rewrite ints_body_answer. cbn [Z.add Pos.add Pos.succ].
    rewrite !int_str_ok_small by reflexivity. reflexivity.
  - rewrite ints_body_answer. cbn [Z.add Z.pos_sub Z.opp].
    rewrite !int_str_ok_small by reflexivity. reflexivity.
Qed.

Lemma add_integers_ok_witness :
  (int_str_ok 9223372036854775807 = true /\ int_str_ok 1 = true
   /\ int_str_ok (9223372036854775807 + 1) = true)
  /\ (serve (lax_int (fun _ => inl int_parsing))
        (POST_add (ints_body 9223372036854775807 1)) tt =
      ({| status_code := 200;
          content := Document (sum_document 9223372036854775807 1
                                 (9223372036854775807 + 1)) |}, tt)
      /\ serve (lax_int (fun _ => inl int_parsing)) (POST_add (ints_body 2 3)) tt =
         ({| status_code := 200; content := Document (sum_document 2 3 5) |}, tt)
      /\ serve (lax_int (fun _ => inl int_parsing)) (POST_add (ints_body (-1) 1)) tt =
         ({| status_code := 200; content := Document (sum_document (-1) 1 0) |}, tt)).
Proof.
  assert (Ha : int_str_ok 9223372036854775807 = true) by small_int.
  assert (Hb : int_str_ok 1 = true) by small_int.
  assert (Hsum : int_str_ok (9223372036854775807 + 1) = true) by small_int.
  split.
  - repeat split; assumption.
  - apply (add_integers_ok unit (fun _ => inl int_parsing) tt
             9223372036854775807 1 Ha Hb Hsum).
Defined.

(** ** [GET /ping] *)

(** C3. Every [GET /ping] request, whatever else it carries and whatever
    validator the model uses, is answered with status 200 and exactly the
    content [{"status": "ok"}]; the world is left as it was, and there is no
    input on which the route answers anything else. *)
Theorem ping_always_ok :
  forall (World : Type) (validate_int : json -> ErrorType + Z)
         (p : Payload) (w : World),
    serve validate_int (GET_ping p) w =
    ({| status_code := 200;
        content := Document (JObject [("status", JString "ok")]) |}, w).
Proof.
  intros World validate_int p w. reflexivity.
Qed.

(** ** Requests that fail validation *)

Section Rejections.
Variable validate_int : json -> ErrorType + Z.
Variable members : list (string * json).





Lemma object_acceptance :
  offending validate_int members "a" = false ->
  offending validate_int members "b" = false ->
  exists data,
    validate_request_body validate_int (Decoded (JObject members)) =
    Returned (inr data).
Proof.
  intros Ha Hb. cbn [validate_request_body model_validate].
  destruct (validate_field_not_offending validate_int _ _ Ha) as [x ->].
  destruct (validate_field_not_offending validate_int _ _ Hb) as [y ->].
  eauto.
Qed.


End Rejections.


(** A body that is absent, is not a JSON text or is not an object is
    rejected as a whole: one entry, located at the body, and no handler
    runs. *)
Lemma invalid_body_rejected {World : Type}
  (validate_int : json -> ErrorType + Z) (p : Payload) (w : World) :
  p <> Unreadable ->
  (forall members, p <> Decoded (JObject members)) ->
  exists l,
    (forall handler, app_post validate_int handler p w =
                     (Raised (RequestValidationError [l]), w))
    /\ (loc (shown l) = [Key "body"]
        \/ exists pos, loc (shown l) = [Key "body"; Index pos]).
Proof.
  intros Hread Hshape.
  destruct p as [|pos| |v]; [| | |destruct v]; unfold app_post; cbn.
  3: congruence.
  9: exfalso; eapply Hshape; reflexivity.
  2: eexists; split; [reflexivity | right; eexists; reflexivity].
  all: eexists; split; [reflexivity | left; reflexivity].
Qed.




(** C4. [POST /add] with body [{"a": "x", "b": 2}] is answered with status
    422 and a [detail] that has an entry at field [a] (its only entry). *)
Theorem string_x_rejected_at_a :
  forall (World : Type) (other : string -> ErrorType + Z) (w : World),
    serve (lax_int other) (POST_add (body_ab (JString "x") (JInt 2))) w =
    ({| status_code := 422;
        content := Detail [mkError [Key "body"; Key "a"] int_parsing] |}, w)
    /\ references_field "a"
         (fst (serve (lax_int other)
                 (POST_add (body_ab (JString "x") (JInt 2))) w)).
Proof.
  intros World other w. split; [reflexivity|].
  cbn. apply Exists_cons_hd. reflexivity.
Qed.




(** ** Every request is answered *)

(** The four answers the service gives. *)
Lemma serve_outcome {World : Type} (validate_int : json -> ErrorType + Z)
  (r : Request) (w : World) :
  is_success (fst (serve validate_int r w)) = true
  \/ is_validation_error (fst (serve validate_int r w)) = true
  \/ fst (serve validate_int r w) = bad_request
  \/ fst (serve validate_int r w) = internal_server_error.
Proof.
  destruct r as [p|p]; [left; reflexivity|].
  unfold serve, dispatch, post_add, app_post. cbn [fst].
  destruct (validate_request_body validate_int p) as [[lines|data]|e] eqn:Hbody.
  - cbn [raise lift fst respond exception_handler].
    unfold validation_error_response.
    destruct (forallb _ lines); [right; left | right; right; right]; reflexivity.
  - unfold add, lift, JSONResponse. cbn [fst].
    destruct (renderable _); [left | right; right; right]; reflexivity.
  - destruct p as [|pos| |v]; cbn in Hbody; try discriminate.
    + injection Hbody as <-. right. right. left. reflexivity.
    + destruct (model_validate validate_int v); discriminate.
Qed.

(** A 400 answers an unreadable body and nothing else. *)
Lemma bad_request_only_unreadable {World : Type}
  (validate_int : json -> ErrorType + Z) (r : Request) (w : World) :
  fst (serve validate_int r w) = bad_request -> r = POST_add Unreadable.
Proof.
  destruct r as [p|p]; [discriminate|].
  unfold serve, dispatch, post_add, app_post. cbn [fst].
  destruct p as [|pos| |v]; cbn; try discriminate; [reflexivity|].
  destruct (model_validate validate_int v) as [lines|data]; cbn.
  - unfold validation_error_response.
    destruct (forallb _ _); discriminate.
  - unfold JSONResponse. destruct (renderable _); discriminate.
Qed.

(** A 500 answers a request whose handler raised or whose validation
    errors could not be rendered. *)
Lemma server_error_only_raised {World : Type}
  (validate_int : json -> ErrorType + Z) (r : Request) (w : World) :
  fst (serve validate_int r w) = internal_server_error ->
  exists p,
    r = POST_add p
    /\ ((exists data,
            validate_request_body validate_int p = Returned (inr data)
            /\ add data w = (Raised ValueError, w))
        \/ (exists lines,
               validate_request_body validate_int p = Returned (inl lines)
               /\ validation_error_response lines = Raised ValueError)).
Proof.
  destruct r as [p|p]; [discriminate|].
  intros Hserve. exists p. split; [reflexivity|].
  revert Hserve. unfold serve, dispatch, post_add, app_post. cbn [fst].
  destruct (validate_request_body validate_int p) as [[lines|data]|e] eqn:Hbody.
  - cbn [raise lift fst respond exception_handler].
    destruct (validation_error_response lines) as [resp|e] eqn:Hrender.
    + unfold validation_error_response in Hrender.
      destruct (forallb _ lines); [|discriminate].
      injection Hrender as <-. discriminate.
    + intros _. right. exists lines. split; [reflexivity|].
      unfold validation_error_response in *.
      destruct (forallb _ lines); [discriminate | reflexivity].
  - unfold add, lift, JSONResponse. cbn [fst].
    destruct (renderable _) eqn:Hrender; [discriminate|].
    intros _. left. exists data. split; [reflexivity|].
    unfold add, lift, JSONResponse. rewrite Hrender. reflexivity.
  - destruct p as [|pos| |v]; cbn in Hbody; try discriminate.
    + injection Hbody as <-. discriminate.
    + destruct (model_validate validate_int v); discriminate.
Qed.

(** The text [{"a": 10^4300, "b": 0}] has a literal of 4301 digits and
    cannot be read. *)
Lemma long_literal_unreadable : ints_body int_str_bound 0 = Unreadable.
Proof.
  unfold ints_body, json_body. cbn [loadable].
  rewrite int_str_ok_bound. reflexivity.
Qed.

(** C6, as stated, fails: not every request is answered with a success or
    a validation error.  The body [{"a": 10^4300, "b": 0}] is refused by
    [json.loads] for the length of its first literal and is answered with a
    400, whatever the validator of [int]. *)
Lemma unreadable_body_neither :
  ~ (exists validate_int : json -> ErrorType + Z,
        forall r : Request,
          is_success (fst (serve validate_int r tt)) = true \/
          is_validation_error (fst (serve validate_int r tt)) = true).
Proof.
  intros [validate_int Hclaim].
  specialize (Hclaim (POST_add (ints_body int_str_bound 0))).
  rewrite long_literal_unreadable, post_add_unreadable in Hclaim.
  destruct Hclaim as [H | H]; discriminate H.
Qed.

(** C6, amended.  Every request to [/ping] or [/add] gets a response and
    leaves the process as it was: a success (200 with a document), a
    validation error (422 with a [detail]), a 400 (only for a body that
    cannot be read) or a 500 (only when [add] raised or the validation
    errors could not be rendered); and a process that is handed any
    sequence of requests answers each of them in this way, whatever came
    before. *)
Theorem every_request_answered :
  forall (World : Type) (validate_int : json -> ErrorType + Z) (w : World),
    (forall r : Request,
        exists resp,
          serve validate_int r w = (resp, w)
          /\ (is_success resp = true \/ is_validation_error resp = true
              \/ (resp = bad_request /\ r = POST_add Unreadable)
              \/ (resp = internal_server_error
                  /\ exists p,
                      r = POST_add p
                      /\ ((exists data,
                              validate_request_body validate_int p =
                              Returned (inr data)
                              /\ add data w = (Raised ValueError, w))
                          \/ (exists lines,
                                 validate_request_body validate_int p =
                                 Returned (inl lines)
                                 /\ validation_error_response lines =
                                    Raised ValueError)))))
    /\ (forall rs : list Request,
          exists resps,
            serve_all validate_int rs w = (resps, w)
            /\ List.length resps = List.length rs
            /\ Forall (fun resp => is_success resp = true
                                   \/ is_validation_error resp = true
                                   \/ resp = bad_request
                                   \/ resp = internal_server_error) resps).
Proof.
  intros World validate_int w. split.
  - intros r. exists (fst (serve validate_int r w)). split.
    + pose proof (serve_keeps_world validate_int r w) as Hw.
      destruct (serve validate_int r w) as [resp w']. cbn in Hw. subst w'.
      reflexivity.
    + destruct (serve_outcome validate_int r w) as [H | [H | [H | H]]].
      * left. exact H.
      * right. left. exact H.
      * right. right. left. split; [exact H|].
        exact (bad_request_only_unreadable validate_int r w H).
      * right. right. right. split; [exact H|].
        exact (server_error_only_raised validate_int r w H).
  - intros rs. exists (fst (serve_all validate_int rs w)). split; [|split].
    + pose proof (serve_all_keeps_world validate_int rs w) as Hw.
      destruct (serve_all validate_int rs w) as [resps w']. cbn in Hw. subst w'.
      reflexivity.
    + rewrite (serve_all_pointwise validate_int rs w w). apply List.length_map.
    + rewrite (serve_all_pointwise validate_int rs w w).
      apply Forall_map, Forall_forall. intros r _. apply serve_outcome.
Qed.

(** ** Statelessness *)

(** C7. Handling is stateless and deterministic: the response to a request
    is the same from any two worlds, in particular after any sequence of
    earlier requests; the responses of a run are those of its requests taken
    one by one; and no route changes the world. *)
Theorem handling_is_stateless :
  forall (World : Type) (validate_int : json -> ErrorType + Z)
         (earlier : list Request) (r : Request) (w1 w2 : World),
    fst (serve validate_int r w1) = fst (serve validate_int r w2)
    /\ fst (serve validate_int r (snd (serve_all validate_int earlier w1))) =
       fst (serve validate_int r w2)
    /\ fst (serve_all validate_int (earlier ++ [r]) w1) =
       (fst (serve_all validate_int earlier w1) ++ [fst (serve validate_int r w2)])%list
    /\ snd (serve validate_int r w1) = w1
    /\ snd (serve_all validate_int earlier w1) = w1.
Proof.
  intros World validate_int earlier r w1 w2. repeat split.
  - apply serve_ignores_world.
  - apply serve_ignores_world.
  - rewrite (serve_all_pointwise validate_int (earlier ++ [r]) w1 w2).
    rewrite (serve_all_pointwise validate_int earlier w1 w2).
    rewrite map_app. reflexivity.
  - apply serve_keeps_world.
  - apply serve_all_keeps_world.
Qed.

(** ** The sum *)

(** C8, as stated, fails: the integers [10^4300 - 1] and [1] are both
    accepted, but no [result] is returned for them: their sum has 4301
    digits, [JSONResponse] raises while rendering it, and the answer is a
    500 without a document. *)
Lemma large_sum_has_no_result :
  ~ (exists other : string -> ErrorType + Z,
        forall (p : Payload) (a b : Z),
          request_body_to_args (lax_int other) p =
          Returned (inr (AddRequest.mk a b)) ->
          result_of (fst (serve (lax_int other) (POST_add p) tt)) =
          Some (JInt (a + b))).
Proof.
  intros [other Hclaim].
  specialize (Hclaim (body_ab (JInt (int_str_bound - 1)) (JInt 1))
                (int_str_bound - 1) 1 eq_refl).
  rewrite (post_add_accepted (lax_int other)
             (body_ab (JInt (int_str_bound - 1)) (JInt 1))
             (AddRequest.mk (int_str_bound - 1) 1) tt eq_refl) in Hclaim.
  rewrite renderable_sum_document in Hclaim. cbn [AddRequest.a AddRequest.b] in Hclaim.
  replace (int_str_bound - 1 + 1) with int_str_bound in Hclaim by lia.
  rewrite int_str_ok_bound, andb_false_r in Hclaim.
  discriminate Hclaim.
Qed.

(** C8, amended.  The addition is exact: for accepted integers [a] and [b]
    whose answer can be rendered (the three integers have at most 4300
    decimal digits) the [result] member is the sum [a + b] in [Z]; it is
    never reduced modulo a word size, so a sum that reaches [2^bits] or
    falls below [-2^bits] is returned as such. *)
Theorem sum_is_exact :
  forall (World : Type) (validate_int : json -> ErrorType + Z)
         (p : Payload) (a b : Z) (w : World),
    request_body_to_args validate_int p = Returned (inr (AddRequest.mk a b)) ->
    renderable (sum_document a b (a + b)) = true ->
    exists r : Z,
      serve validate_int (POST_add p) w =
      ({| status_code := 200; content := Document (sum_document a b r) |}, w)
      /\ r = a + b
      /\ (forall bits : Z, 2 ^ bits <= a + b -> 2 ^ bits <= r)
      /\ (forall bits : Z, a + b < - 2 ^ bits -> r < - 2 ^ bits).
Proof.
  intros World validate_int p a b w Hargs Hrender.
  exists (a + b). repeat split; auto.
  rewrite (post_add_accepted validate_int p _ w Hargs).
  cbn [AddRequest.a AddRequest.b]. rewrite Hrender. reflexivity.
Qed.

Lemma sum_is_exact_witness :
  (request_body_to_args (lax_int (fun _ => inl int_parsing))
     (body_ab (JInt 9223372036854775807) (JInt 1)) =
   Returned (inr (AddRequest.mk 9223372036854775807 1))
   /\ renderable (sum_document 9223372036854775807 1
                    (9223372036854775807 + 1)) = true)
  /\ exists r : Z,
      serve (lax_int (fun _ => inl int_parsing))
        (POST_add (body_ab (JInt 9223372036854775807) (JInt 1))) tt =
      ({| status_code := 200;
          content := Document (sum_document 9223372036854775807 1 r) |}, tt)
      /\ r = 9223372036854775807 + 1
      /\ (forall bits : Z, 2 ^ bits <= 9223372036854775807 + 1 -> 2 ^ bits <= r)
      /\ (forall bits : Z, 9223372036854775807 + 1 < - 2 ^ bits -> r < - 2 ^ bits).
Proof.
  assert (Hrender : renderable (sum_document 9223372036854775807 1
                                  (9223372036854775807 + 1)) = true).
  { rewrite renderable_sum_document, !int_str_ok_small by reflexivity.
    reflexivity. }
  split.
  - split; [reflexivity | exact Hrender].
  - apply (sum_is_exact unit (lax_int (fun _ => inl int_parsing))
             (body_ab (JInt 9223372036854775807) (JInt 1))
             9223372036854775807 1 tt eq_refl Hrender).
Defined.

Lemma sum_beyond_int64 :
  forall other : string -> ErrorType + Z,
    serve (lax_int other)
      (POST_add (body_ab (JInt 9223372036854775807) (JInt 1))) tt =
    ({| status_code := 200;
        content := Document (sum_document 9223372036854775807 1
                               9223372036854775808) |}, tt).
Proof.
  intros other.
  rewrite (post_add_accepted (lax_int other)
             (body_ab (JInt 9223372036854775807) (JInt 1))
             (AddRequest.mk 9223372036854775807 1) tt eq_refl).
  rewrite renderable_sum_document, !int_str_ok_small by reflexivity.
  reflexivity.
Qed.

(** ** Lax conversion *)

(** *** Numeric strings *)

Lemma read_digits_of (d : Decimal.uint) :
  forall acc, read_digits acc (digits_of d) = Some (uint_value acc d).
Proof.
  induction d; intros acc; cbn; auto; apply IHd.
Qed.

Lemma of_uint_acc_value (d : Decimal.uint) :
  forall p, Zpos (Pos.of_uint_acc d p) = uint_value (Zpos p) d.
Proof.
  induction d; intros p; cbn [Pos.of_uint_acc uint_value]; auto;
    rewrite IHd; f_equal; lia.
Qed.

Lemma of_uint_value (d : Decimal.uint) :
  Z.of_N (Pos.of_uint d) = uint_value 0 d.
Proof.
  induction d; cbn [Pos.of_uint uint_value]; auto;
    cbn [Z.of_N]; rewrite of_uint_acc_value; reflexivity.
Qed.

Lemma to_uint_value (p : positive) : uint_value 0 (Pos.to_uint p) = Zpos p.
Proof.
  rewrite <- of_uint_value, DecimalPos.Unsigned.of_to. reflexivity.
Qed.

Lemma digits_have_no_space (d : Decimal.uint) :
  Forall (fun c => is_space c = false) (digits_of d).
Proof.
  induction d; cbn; constructor; auto.
Qed.

Lemma drop_spaces_none (cs : list ascii) :
  Forall (fun c => is_space c = false) cs -> drop_spaces cs = cs.
Proof.
  intros H. destruct H as [|c rest Hc _]; cbn; [reflexivity|].
  rewrite Hc. reflexivity.
Qed.

Lemma trim_none (cs : list ascii) :
  Forall (fun c => is_space c = false) cs -> trim cs = cs.
Proof.
  intros H. unfold trim. rewrite (drop_spaces_none cs H).
  rewrite drop_spaces_none by (apply Forall_rev; exact H).
  apply rev_involutive.
Qed.

Lemma length_list_ascii_of_string (s : string) :
  List.length (list_ascii_of_string s) = String.length s.
Proof.
  induction s as [|c s IH]; cbn; [reflexivity | rewrite IH; reflexivity].
Qed.

Lemma decimal_chars (n : Z) :
  list_ascii_of_string (decimal n) =
  match n with
  | Z0 => ["0"%char]
  | Zpos p => digits_of (Pos.to_uint p)
  | Zneg p => "-"%char :: digits_of (Pos.to_uint p)
  end.
Proof.
  destruct n as [|p|p]; [reflexivity| |];
    unfold decimal; cbn [Z.to_int DecimalString.NilZero.string_of_int];
    pose proof (DecimalPos.Unsigned.to_uint_nonnil p) as Hnil;
    destruct (Pos.to_uint p); congruence || reflexivity.
Qed.

Lemma trim_decimal (n : Z) :
  trim (list_ascii_of_string (decimal n)) = list_ascii_of_string (decimal n).
Proof.
  apply trim_none. rewrite decimal_chars.
  destruct n as [|p|p].
  - repeat constructor.
  - apply digits_have_no_space.
  - constructor; [reflexivity | apply digits_have_no_space].
Qed.

Lemma plain_decimal_decimal (n : Z) :
  plain_decimal (list_ascii_of_string (decimal n)) = Some n.
Proof.
  rewrite decimal_chars. destruct n as [|p|p]; [reflexivity| |].
  - pose proof (DecimalPos.Unsigned.to_uint_nonnil p) as Hnil.
    pose proof (read_digits_of (Pos.to_uint p) 0) as Hread.
    rewrite <- (to_uint_value p).
    destruct (Pos.to_uint p); [congruence | ..];
      cbn in Hread |- *; rewrite Hread; reflexivity.
  - pose proof (DecimalPos.Unsigned.to_uint_nonnil p) as Hnil.
    pose proof (read_digits_of (Pos.to_uint p) 0) as Hread.
    change (Z.neg p) with (- Z.pos p). rewrite <- (to_uint_value p).
    destruct (Pos.to_uint p); [congruence | ..];
      cbn in Hread |- *; rewrite Hread; reflexivity.
Qed.

(** The decimal literal of an integer, sent as a string of at most
    [max_int_str_len] characters, is read back as that integer. *)
Lemma str_as_int_decimal (other : string -> ErrorType + Z) (n : Z) :
  Z.of_nat (String.length (decimal n)) <= max_int_str_len ->
  str_as_int other (decimal n) = inr n.
Proof.
  intros Hlen. unfold str_as_int.
  rewrite trim_decimal, plain_decimal_decimal, length_list_ascii_of_string.
  apply Z.leb_le in Hlen. rewrite Hlen. reflexivity.
Qed.

Example decimal_examples :
  decimal 3 = "3" /\ decimal (-42) = "-42" /\ decimal 0 = "0"
  /\ (forall other, str_as_int other " 7 " = inr 7)
  /\ (forall other, str_as_int other "+7" = inr 7)
  /\ (forall other, str_as_int other "x" = inl int_parsing)
  /\ (forall other, str_as_int other "1e3" = inl int_parsing)
  /\ (forall other, str_as_int other "1_000" = other "1_000")
  /\ (forall other, str_as_int other "3.0" = other "3.0").
Proof.
  repeat split.
Qed.

(** *** Floats *)

Example float_examples :
  float_as_int float_two = inr 2
  /\ float_as_int (S754_finite true 5 (-1)) = inl int_from_float
  /\ float_as_int (S754_infinity false) = inl finite_number
  /\ float_as_int S754_nan = inl finite_number
  /\ float_as_int (S754_zero true) = inr 0.
Proof.
  repeat split.
Qed.

Example float_two_is_binary64 : valid_binary 53 1024 float_two = true.
Proof. reflexivity. Qed.

(** A body [{"a": x, "b": y}] with two converted values is never answered
    with a validation error. *)
Lemma converted_not_rejected {World : Type}
  (validate_int : json -> ErrorType + Z) (x y : json) (a b : Z) (w : World) :
  validate_int x = inr a -> validate_int y = inr b ->
  is_validation_error
    (fst (serve validate_int (POST_add (body_ab x y)) w)) = false.
Proof.
  intros Hx Hy.
  rewrite (post_add_accepted validate_int (body_ab x y) (AddRequest.mk a b) w).
  - cbn [fst]. destruct (renderable _); reflexivity.
  - unfold request_body_to_args, body_ab, validate_request_body, model_validate,
      validate_field.
    cbn [dict_get String.eqb Ascii.eqb Bool.eqb]. rewrite Hx, Hy. reflexivity.
Qed.

Ltac answered_200 data :=
  match goal with
  | |- serve ?vi (POST_add ?p) ?w = _ =>
      rewrite (post_add_accepted vi p data w eq_refl);
      rewrite renderable_sum_document, !int_str_ok_small by reflexivity;
      reflexivity
  end.

(** C9. Bodies whose [a] or [b] is not a JSON integer can be accepted: the
    string ["3"], the float 2.0 and the boolean [true] are converted to 3, 2
    and 1 and the answer is a 200 with the sum of the converted values.  A
    body is never rejected when lax validation converts both values: no
    body [{"a": x, "b": y}] is answered with a 422 while [x] and [y] are
    convertible, and no object body while [a] and [b] are present and
    convertible. *)
Theorem lax_validation_converts :
  forall (World : Type) (other : string -> ErrorType + Z) (w : World),
    (is_json_integer (JString "3") = false
     /\ serve (lax_int other) (POST_add (body_ab (JString "3") (JInt 2))) w =
        ({| status_code := 200; content := Document (sum_document 3 2 5) |}, w))
    /\ (is_json_integer (JFloat float_two) = false
        /\ serve (lax_int other) (POST_add (body_ab (JInt 1) (JFloat float_two))) w =
           ({| status_code := 200; content := Document (sum_document 1 2 3) |}, w))
    /\ (is_json_integer (JBool true) = false
        /\ serve (lax_int other) (POST_add (body_ab (JBool true) (JInt 1))) w =
           ({| status_code := 200; content := Document (sum_document 1 1 2) |}, w))
    /\ (forall x y : json,
          is_validation_error
            (fst (serve (lax_int other) (POST_add (body_ab x y)) w))
          && (coercible other x && coercible other y) = false)
    /\ (forall members : list (string * json),
          is_validation_error
            (fst (serve (lax_int other)
                    (POST_add (Decoded (JObject members))) w))
          && negb (offending (lax_int other) members "a"
                   || offending (lax_int other) members "b") = false).
Proof.
  intros World other w.
  split; [|split; [|split; [|split]]].
  - split; [reflexivity|]. answered_200 (AddRequest.mk 3 2).
  - split; [reflexivity|]. answered_200 (AddRequest.mk 1 2).
  - split; [reflexivity|]. answered_200 (AddRequest.mk 1 1).
  - intros x y. unfold coercible.
    destruct (lax_int other x) as [ex|a] eqn:Hx;
      [rewrite andb_false_r; reflexivity|].
    destruct (lax_int other y) as [ey|b] eqn:Hy;
      [rewrite !andb_false_r; reflexivity|].
    rewrite (converted_not_rejected (lax_int other) x y a b w Hx Hy).
    reflexivity.
  - intros members.
    destruct (offending (lax_int other) members "a") eqn:Ha;
      [rewrite andb_false_r; reflexivity|].
    destruct (offending (lax_int other) members "b") eqn:Hb;
      [rewrite andb_false_r; reflexivity|].
    destruct (object_acceptance (lax_int other) members Ha Hb) as [data Hdata].
    assert (Hargs : request_body_to_args (lax_int other)
                      (Decoded (JObject members)) = Returned (inr data))
      by (unfold request_body_to_args; rewrite Hdata; reflexivity).
    rewrite (post_add_accepted (lax_int other) _ data w Hargs). cbn [fst].
    destruct (renderable _); reflexivity.
Qed.

(** ** The shape of a successful answer *)

(** C10, as stated, fails: an accepted request is not always answered with
    a document.  The integers [10^4300 - 1] and [1] pass validation, but
    rendering their sum raises and the answer is a 500 in plain text. *)
Lemma accepted_without_document :
  ~ (exists other : string -> ErrorType + Z,
        forall (p : Payload) (data : AddRequest.t),
          request_body_to_args (lax_int other) p = Returned (inr data) ->
          is_success (fst (serve (lax_int other) (POST_add p) tt)) = true).
Proof.
  intros [other Hclaim].
  specialize (Hclaim (body_ab (JInt (int_str_bound - 1)) (JInt 1))
                (AddRequest.mk (int_str_bound - 1) 1) eq_refl).
  rewrite (post_add_accepted (lax_int other)
             (body_ab (JInt (int_str_bound - 1)) (JInt 1))
             (AddRequest.mk (int_str_bound - 1) 1) tt eq_refl) in Hclaim.
  rewrite renderable_sum_document in Hclaim. cbn [AddRequest.a AddRequest.b] in Hclaim.
  replace (int_str_bound - 1 + 1) with int_str_bound in Hclaim by lia.
  rewrite int_str_ok_bound, andb_false_r in Hclaim.
  discriminate Hclaim.
Qed.

(** C10, amended.  For every accepted [POST /add] request whose answer can
    be rendered (the two integers and their sum have at most 4300 decimal
    digits) the answer is a 200 whose document has the members [a], [b],
    [result], in this order and no others, with [a] and [b] the values of
    the validated request. *)
Theorem response_echoes_request :
  forall (World : Type) (validate_int : json -> ErrorType + Z)
         (p : Payload) (data : AddRequest.t) (w : World),
    request_body_to_args validate_int p = Returned (inr data) ->
    renderable (sum_document (AddRequest.a data) (AddRequest.b data)
                  (AddRequest.a data + AddRequest.b data)) = true ->
    exists members,
      serve validate_int (POST_add p) w =
      ({| status_code := 200; content := Document (JObject members) |}, w)
      /\ map fst members = ["a"; "b"; "result"]
      /\ dict_get "a" members = Some (JInt (AddRequest.a data))
      /\ dict_get "b" members = Some (JInt (AddRequest.b data)).
Proof.
  intros World validate_int p data w Hargs Hrender.
  eexists. split.
  - rewrite (post_add_accepted validate_int p data w Hargs), Hrender.
    reflexivity.
  - repeat split.
Qed.

Lemma response_echoes_request_witness :
  (request_body_to_args (lax_int (fun _ => inl int_parsing))
     (body_ab (JInt 2) (JInt 3)) = Returned (inr (AddRequest.mk 2 3))
   /\ renderable (sum_document 2 3 (2 + 3)) = true)
  /\ exists members,
      serve (lax_int (fun _ => inl int_parsing))
        (POST_add (body_ab (JInt 2) (JInt 3))) tt =
      ({| status_code := 200; content := Document (JObject members) |}, tt)
      /\ map fst members = ["a"; "b"; "result"]
      /\ dict_get "a" members = Some (JInt 2)
      /\ dict_get "b" members = Some (JInt 3).
Proof.
  assert (Hrender : renderable (sum_document 2 3 (2 + 3)) = true).
  { rewrite renderable_sum_document, !int_str_ok_small by reflexivity.
    reflexivity. }
  split.
  - split; [reflexivity | exact Hrender].
  - apply (response_echoes_request unit (lax_int (fun _ => inl int_parsing))
             (body_ab (JInt 2) (JInt 3)) (AddRequest.mk 2 3) tt eq_refl Hrender).
Defined.

(** * Further properties of the model and of the handler *)

(** ** Lookup in a decoded object *)



Lemma dict_get_In (key : string) (v : json) (m : list (string * json)) :
  dict_get key m = Some v -> In (key, v) m.
Proof.
  induction m as [|[k x] rest IH]; cbn [dict_get]; [discriminate|].
  destruct (dict_get key rest) as [later|].
  - intros [= ->]. right. apply IH. reflexivity.
  - destruct (String.eqb_spec k key) as [-> | _]; [|discriminate].
    intros [= ->]. left. reflexivity.
Qed.

Lemma dict_get_absent (key : string) (m : list (string * json)) :
  ~ In key (map fst m) -> dict_get key m = None.
Proof.
  induction m as [|[k x] rest IH]; cbn [dict_get map fst]; [reflexivity|].
  intros Hnot. rewrite IH by (intros Hin; apply Hnot; right; exact Hin).
  destruct (String.eqb_spec k key) as [-> | _]; [|reflexivity].
  exfalso. apply Hnot. left. reflexivity.
Qed.

Lemma In_dict_get (key : string) (v : json) (m : list (string * json)) :
  NoDup (map fst m) -> In (key, v) m -> dict_get key m = Some v.
Proof.
  induction m as [|[k x] rest IH]; cbn [dict_get map fst]; [intros _ []|].
  intros Hnodup Hin. inversion Hnodup as [|k' keys Hfresh Hrest]; subst.
  destruct Hin as [[= -> ->] | Hin].
  - rewrite (dict_get_absent key rest Hfresh), String.eqb_refl. reflexivity.
  - rewrite (IH Hrest Hin). reflexivity.
Qed.

(** With distinct keys a lookup does not depend on the order of the
    members. *)
Lemma dict_get_permutation (key : string) (m m' : list (string * json)) :
  NoDup (map fst m) -> Permutation m m' -> dict_get key m = dict_get key m'.
Proof.
  intros Hnodup Hperm.
  assert (Hnodup' : NoDup (map fst m'))
    by (eapply Permutation_NoDup; [apply Permutation_map; exact Hperm | exact Hnodup]).
  destruct (dict_get key m) as [v|] eqn:Hm.
  - symmetry. apply In_dict_get; [exact Hnodup'|].
    eapply Permutation_in; [exact Hperm | apply dict_get_In; exact Hm].
  - destruct (dict_get key m') as [v'|] eqn:Hm'; [|reflexivity].
    apply dict_get_In in Hm'.
    apply Permutation_sym in Hperm.
    pose proof (In_dict_get key v' m Hnodup (Permutation_in _ Hperm Hm')) as Hsome.
    congruence.
Qed.



(** The answer to an object body is fixed by what its lookups give. *)
Lemma serve_by_lookups {World : Type} (validate_int : json -> ErrorType + Z)
  (m m' : list (string * json)) (w : World) :
  (forall key, dict_get key m = dict_get key m') ->
  serve validate_int (POST_add (Decoded (JObject m))) w =
  serve validate_int (POST_add (Decoded (JObject m'))) w.
Proof.
  intros Hsame. pose proof (renderable_by_lookups m m' Hsame) as Hrender.
  unfold serve, dispatch, post_add, app_post, validate_request_body,
    model_validate, validate_field.
  rewrite <- (Hsame "a"), <- (Hsame "b").
  destruct (dict_get "a" m) as [va|]; [destruct (validate_int va)|];
    (destruct (dict_get "b" m) as [vb|]; [destruct (validate_int vb)|]);
    cbn [map app raise lift fst snd respond exception_handler];
    unfold validation_error_response, under_body;
    cbn [forallb input map shown loc type_];
    rewrite <- ?Hrender; reflexivity.
Qed.


(** ** Members the model does not declare *)



(** X2. The order in which the members of the body are written does not
    matter: two bodies with distinct keys that are permutations of one
    another get the same answer. *)
Theorem member_order_irrelevant :
  forall (World : Type) (validate_int : json -> ErrorType + Z)
         (m m' : list (string * json)) (w : World),
    NoDup (map fst m) -> Permutation m m' ->
    serve validate_int (POST_add (Decoded (JObject m))) w =
    serve validate_int (POST_add (Decoded (JObject m'))) w.
Proof.
  intros World validate_int m m' w Hnodup Hperm.
  apply serve_by_lookups. intros key. apply dict_get_permutation; assumption.
Qed.

Lemma member_order_irrelevant_witness :
  (NoDup (map fst [("a", JInt 2); ("b", JInt 3)])
   /\ Permutation [("a", JInt 2); ("b", JInt 3)] [("b", JInt 3); ("a", JInt 2)])
  /\ serve (lax_int (fun _ => inl int_parsing))
       (POST_add (Decoded (JObject [("a", JInt 2); ("b", JInt 3)]))) tt =
     serve (lax_int (fun _ => inl int_parsing))
       (POST_add (Decoded (JObject [("b", JInt 3); ("a", JInt 2)]))) tt.
Proof.
  assert (Hnodup : NoDup (map fst [("a", JInt 2); ("b", JInt 3)])).
  { cbn. repeat constructor; cbn; intuition discriminate. }
  assert (Hperm : Permutation [("a", JInt 2); ("b", JInt 3)]
                              [("b", JInt 3); ("a", JInt 2)])
    by apply perm_swap.
  split.
  - split; assumption.
  - apply (member_order_irrelevant unit (lax_int (fun _ => inl int_parsing))
             [("a", JInt 2); ("b", JInt 3)] [("b", JInt 3); ("a", JInt 2)] tt
             Hnodup Hperm).
Defined.

(** ** Symmetry of the sum *)

(** X3. Exchanging the values of [a] and [b] changes neither the status of
    the answer nor its [result]: both bodies are accepted or both rejected,
    and an accepted pair gives the same sum either way. *)
Theorem swapping_fields_keeps_result :
  forall (World : Type) (validate_int : json -> ErrorType + Z)
         (x y : json) (w : World),
    status_code (fst (serve validate_int (POST_add (body_ab x y)) w)) =
    status_code (fst (serve validate_int (POST_add (body_ab y x)) w))
    /\ result_of (fst (serve validate_int (POST_add (body_ab x y)) w)) =
       result_of (fst (serve validate_int (POST_add (body_ab y x)) w)).
Proof.
  intros World validate_int x y w.
  destruct (validate_int x) as [ex|a] eqn:Hx;
    destruct (validate_int y) as [ey|b] eqn:Hy.
  1-3: unfold serve, dispatch, post_add, app_post, body_ab,
         validate_request_body, model_validate, validate_field;
       cbn [dict_get String.eqb Ascii.eqb Bool.eqb]; rewrite Hx, Hy;
       cbn [map app raise lift fst snd respond exception_handler];
       unfold validation_error_response, under_body;
       cbn [forallb input map shown loc type_];
       destruct (renderable x); destruct (renderable y); split; reflexivity.
  assert (Hxy : request_body_to_args validate_int (body_ab x y) =
                Returned (inr (AddRequest.mk a b))).
  { unfold request_body_to_args, body_ab, validate_request_body,
      model_validate, validate_field.
    cbn [dict_get String.eqb Ascii.eqb Bool.eqb]. rewrite Hx, Hy. reflexivity. }
  assert (Hyx : request_body_to_args validate_int (body_ab y x) =
                Returned (inr (AddRequest.mk b a))).
  { unfold request_body_to_args, body_ab, validate_request_body,
      model_validate, validate_field.
    cbn [dict_get String.eqb Ascii.eqb Bool.eqb]. rewrite Hx, Hy. reflexivity. }
  rewrite (post_add_accepted validate_int _ _ w Hxy).
  rewrite (post_add_accepted validate_int _ _ w Hyx).
  cbn [AddRequest.a AddRequest.b fst]. rewrite !renderable_sum_document.
  rewrite (Z.add_comm b a).
  destruct (int_str_ok a); destruct (int_str_ok b);
    destruct (int_str_ok (a + b)); split; reflexivity.
Qed.

(** ** Sending an answer back *)

(** X4. The document of a successful answer is itself a body the route
    accepts, and sending it back gives the same answer again: its [a] and
    [b] are integers and its [result] member is not looked at. *)
Theorem success_document_resubmitted :
  forall (World : Type) (other : string -> ErrorType + Z)
         (p : Payload) (w : World) (resp : Response) (d : json),
    serve (lax_int other) (POST_add p) w = (resp, w) ->
    content resp = Document d ->
    serve (lax_int other) (POST_add (Decoded d)) w = (resp, w).
Proof.
  intros World other p w resp d Hserve Hdoc.
  unfold serve, dispatch, post_add, app_post in Hserve.
  destruct (validate_request_body (lax_int other) p) as [[lines|data]|e] eqn:Hbody.
  - cbn [raise lift fst snd respond exception_handler] in Hserve.
    unfold validation_error_response in Hserve.
    destruct (forallb _ lines); injection Hserve as <-; discriminate Hdoc.
  - unfold add, lift, JSONResponse in Hserve. cbn [fst snd] in Hserve.
    fold (sum_document (AddRequest.a data) (AddRequest.b data)
            (AddRequest.a data + AddRequest.b data)) in Hserve.
    destruct (renderable (sum_document _ _ _)) eqn:Hrender;
      cbn [respond exception_handler] in Hserve; injection Hserve as <-;
      [|discriminate Hdoc].
    cbn [content] in Hdoc. injection Hdoc as <-.
    unfold sum_document.
    rewrite (add_integers_any_object other
               [("a", JInt (AddRequest.a data)); ("b", JInt (AddRequest.b data));
                ("result", JInt (AddRequest.a data + AddRequest.b data))]
               (AddRequest.a data) (AddRequest.b data) w eq_refl eq_refl).
    rewrite Hrender. reflexivity.
  - destruct p as [|pos| |v]; cbn in Hbody; try discriminate.
    + injection Hbody as <-. cbn in Hserve. injection Hserve as <-.
      discriminate Hdoc.
    + destruct (model_validate (lax_int other) v); discriminate.
Qed.

Lemma success_document_resubmitted_witness :
  (serve (lax_int (fun _ => inl int_parsing))
     (POST_add (body_ab (JString "3") (JInt 2))) tt =
   ({| status_code := 200; content := Document (sum_document 3 2 5) |}, tt)
   /\ content {| status_code := 200; content := Document (sum_document 3 2 5) |} =
      Document (sum_document 3 2 5))
  /\ serve (lax_int (fun _ => inl int_parsing))
       (POST_add (Decoded (sum_document 3 2 5))) tt =
     ({| status_code := 200; content := Document (sum_document 3 2 5) |}, tt).
Proof.
  assert (Hserve : serve (lax_int (fun _ => inl int_parsing))
                     (POST_add (body_ab (JString "3") (JInt 2))) tt =
                   ({| status_code := 200;
                       content := Document (sum_document 3 2 5) |}, tt))
    by answered_200 (AddRequest.mk 3 2).
  split.
  - split; [exact Hserve | reflexivity].
  - apply (success_document_resubmitted unit (fun _ => inl int_parsing)
             (body_ab (JString "3") (JInt 2)) tt
             {| status_code := 200; content := Document (sum_document 3 2 5) |}
             (sum_document 3 2 5) Hserve eq_refl).
Defined.

(** ** The shape of a rejection *)

(** X5. A rejection always says where: whatever the body and the validator,
    the [detail] of a 422 has one or two entries, every entry is located
    under [body], and no two entries share a location. *)
Theorem rejection_detail_shape :
  forall (validate_int : json -> ErrorType + Z) (p : Payload)
         (errors : list ErrorDetail),
    request_body_to_args validate_int p = Returned (inl errors) ->
    (1 <= List.length errors <= 2)%nat
    /\ Forall (fun e => exists rest, loc e = Key "body" :: rest) errors
    /\ NoDup (map loc errors).
Proof.
  intros validate_int p errors.
  assert (Hone : forall e, (1 <= List.length [e] <= 2)%nat
                           /\ NoDup (map loc [e])).
  { intros e. split; [cbn; lia|]. repeat constructor. intros []. }
  assert (Hfield : forall name members es,
             validate_field validate_int name members = inl es ->
             exists t i, es = [mkLine (mkError [Key name] t) i]).
  { intros name members es. unfold validate_field.
    destruct (dict_get name members) as [v|];
      [destruct (validate_int v) as [t|n]|]; intros [= <-]; eauto. }
  unfold request_body_to_args.
  destruct p as [|pos| |v]; cbn [validate_request_body].
  - intros [= <-]. destruct (Hone (mkError [Key "body"] missing)) as [Hlen Hnd].
    repeat split; auto. repeat constructor. eexists. reflexivity.
  - intros [= <-].
    destruct (Hone (mkError [Key "body"; Index pos] json_invalid)) as [Hlen Hnd].
    repeat split; auto. repeat constructor. eexists. reflexivity.
  - discriminate.
  - destruct v as [|flag|n|f|s|items|members];
      try (cbn [model_validate map under_body shown loc type_]; intros [= <-];
           match goal with
           | |- context [[?e]] => destruct (Hone e) as [Hlen Hnd]
           end;
           repeat split; auto; repeat constructor; eexists; reflexivity).
    cbn [model_validate].
    destruct (validate_field validate_int "a" members) as [ea|a] eqn:Ha;
      destruct (validate_field validate_int "b" members) as [eb|b] eqn:Hb;
      try (destruct (Hfield _ _ _ Ha) as [ta [ia ->]]);
      try (destruct (Hfield _ _ _ Hb) as [tb [ib ->]]);
      intros [= <-]; cbn.
    + repeat split; try lia.
      * repeat constructor; eexists; reflexivity.
      * repeat constructor; cbn; intuition discriminate.
    + repeat split; try lia.
      * repeat constructor; eexists; reflexivity.
      * repeat constructor; cbn; intuition.
    + repeat split; try lia.
      * repeat constructor; eexists; reflexivity.
      * repeat constructor; cbn; intuition.
Qed.

Lemma rejection_detail_shape_witness :
  request_body_to_args (lax_int (fun _ => inl int_parsing))
    (Decoded (JObject [("a", JNull)])) =
  Returned (inl [mkError [Key "body"; Key "a"] int_type;
                 mkError [Key "body"; Key "b"] missing])
  /\ ((1 <= List.length [mkError [Key "body"; Key "a"] int_type;
                         mkError [Key "body"; Key "b"] missing] <= 2)%nat
      /\ Forall (fun e => exists rest, loc e = Key "body" :: rest)
           [mkError [Key "body"; Key "a"] int_type;
            mkError [Key "body"; Key "b"] missing]
      /\ NoDup (map loc [mkError [Key "body"; Key "a"] int_type;
                         mkError [Key "body"; Key "b"] missing])).
Proof.
  split.
  - reflexivity.
  - apply (rejection_detail_shape (lax_int (fun _ => inl int_parsing))
             (Decoded (JObject [("a", JNull)]))).
    reflexivity.
Defined.

(** ** Repeated keys *)



(** ** Integers sent as strings *)

(** X6. Integers may be sent as their decimal strings: for all integers [n]
    and [m] whose decimal strings have at most 4300 characters and whose
    answer can be rendered, the body [{"a": str(n), "b": str(m)}] is
    answered like [{"a": n, "b": m}], with status 200 and the integers [n],
    [m] and [n + m] in the document. *)
Theorem decimal_strings_round_trip :
  forall (World : Type) (other : string -> ErrorType + Z) (n m : Z) (w : World),
    Z.of_nat (String.length (decimal n)) <= max_int_str_len ->
    Z.of_nat (String.length (decimal m)) <= max_int_str_len ->
    renderable (sum_document n m (n + m)) = true ->
    serve (lax_int other)
      (POST_add (body_ab (JString (decimal n)) (JString (decimal m)))) w =
    ({| status_code := 200; content := Document (sum_document n m (n + m)) |}, w)
    /\ serve (lax_int other)
         (POST_add (body_ab (JString (decimal n)) (JString (decimal m)))) w =
       serve (lax_int other) (POST_add (body_ab (JInt n) (JInt m))) w.
Proof.
  intros World other n m w Hn Hm Hrender.
  assert (Hargs : request_body_to_args (lax_int other)
                    (body_ab (JString (decimal n)) (JString (decimal m))) =
                  Returned (inr (AddRequest.mk n m))).
  { unfold request_body_to_args, body_ab, validate_request_body,
      model_validate, validate_field.
    cbn [dict_get String.eqb Ascii.eqb Bool.eqb lax_int].
    rewrite !str_as_int_decimal by assumption. reflexivity. }
  rewrite (post_add_accepted (lax_int other) _ _ w Hargs).
  rewrite (post_add_accepted (lax_int other) (body_ab (JInt n) (JInt m))
             (AddRequest.mk n m) w eq_refl).
  cbn [AddRequest.a AddRequest.b]. rewrite Hrender. split; reflexivity.
Qed.

Lemma decimal_strings_round_trip_witness :
  (Z.of_nat (String.length (decimal (-42))) <= max_int_str_len
   /\ Z.of_nat (String.length (decimal 7)) <= max_int_str_len
   /\ renderable (sum_document (-42) 7 (-42 + 7)) = true)
  /\ (serve (lax_int (fun _ => inl int_parsing))
        (POST_add (body_ab (JString (decimal (-42))) (JString (decimal 7)))) tt =
      ({| status_code := 200;
          content := Document (sum_document (-42) 7 (-42 + 7)) |}, tt)
      /\ serve (lax_int (fun _ => inl int_parsing))
           (POST_add (body_ab (JString (decimal (-42))) (JString (decimal 7)))) tt =
         serve (lax_int (fun _ => inl int_parsing))
           (POST_add (body_ab (JInt (-42)) (JInt 7))) tt).
Proof.
  assert (Hn : Z.of_nat (String.length (decimal (-42))) <= max_int_str_len)
    by (apply Z.leb_le; reflexivity).
  assert (Hm : Z.of_nat (String.length (decimal 7)) <= max_int_str_len)
    by (apply Z.leb_le; reflexivity).
  assert (Hrender : renderable (sum_document (-42) 7 (-42 + 7)) = true).
  { rewrite renderable_sum_document, !int_str_ok_small by reflexivity.
    reflexivity. }
  split.
  - split; [exact Hn | split; [exact Hm | exact Hrender]].
  - apply (decimal_strings_round_trip unit (fun _ => inl int_parsing)
             (-42) 7 tt Hn Hm Hrender).
Defined.
